(** * The [aicode] package: its module initialisation, verified

    The package is one file, [src/aicode/__init__.py]: a docstring, three
    [from ... import ...] statements and two annotated assignments, the
    second of which calls [importlib.metadata.version].  The development
    below embeds that module body in a state-and-exception monad over the
    interpreter state the body touches, and proves what importing the
    package does.  Statement semantics are those of CPython 3.11 to 3.13
    (the annotation of a module-level assignment is evaluated when the
    assignment runs). *)

From Stdlib Require Import Ascii.
From stdpp Require Import gmap strings list.

(** ** Values and exceptions *)

(** The Python objects that occur in the module body. *)
#[warnings="-register-all"]
Inductive value : Type :=
| VNone                                 (* [None] *)
| VStr (s : string)                     (* a [str] *)
| VTuple (items : list value)           (* a [tuple]: immutable sequence *)
| VAttr (module name : string)          (* the object [name] of [module] *)
| VBuiltin (name : string)              (* a builtin, here the type [str] *)
| VSubscript (base arg : value)         (* [base[arg]], a generic alias *)
| VDict (entries : list (string * value)). (* a [dict] with [str] keys *)

(** The exceptions that can leave the module body or the provider:
    [importlib.metadata.PackageNotFoundError(name)]; [ValueError], which
    the provider raises for an empty name; [ImportError] for a
    [from module import name] that the interpreter cannot serve;
    [TypeError] for an item assignment to, or a call of, an object that
    does not support it; [NameError] for a name that is not bound. *)
Inductive exn : Type :=
| PackageNotFoundError (name : string)
| ValueError
| ImportError (module name : string)
| TypeError
| NameError (name : string).

(** What the provider does with one query: it returns an object or raises. *)
Inductive answer : Type :=
| Returns (x : value)
| Raises (e : exn).

(** ** Interpreter state

    [globals] is the namespace of the module under execution (a Python
    dict from names to objects).  [metadata] is the metadata provider as
    the body meets it: for each name it may be asked about, what
    [importlib.metadata.version] does with that query in the current
    environment.  [queries] logs every lookup made of the provider and
    [imports] every module the body has asked the import system for
    (which loads the module, and the modules it imports, into
    [sys.modules] when they are not there yet), both oldest first. *)
Record interp : Type := Interp {
  globals : gmap string value;
  metadata : string -> answer;
  queries : list string;
  imports : list string
}.

Inductive outcome (A : Type) : Type :=
| Ok (a : A) (s : interp)
| Raise (e : exn) (s : interp).
Arguments Ok {A} a s.
Arguments Raise {A} e s.

Definition M (A : Type) : Type := interp -> outcome A.

Definition ret {A} (a : A) : M A := fun s => Ok a s.

Definition bind {A B} (c : M A) (k : A -> M B) : M B :=
  fun s => match c s with
           | Ok a s' => k a s'
           | Raise e s' => Raise e s'
           end.

Definition raise {A} (e : exn) : M A := fun s => Raise e s.

#[global] Instance M_ret : MRet M := @ret.
#[global] Instance M_bind : MBind M := fun A B k c => bind c k.

(** The state an [outcome] ends in, and what it delivers. *)
Definition final {A} (o : outcome A) : interp :=
  match o with Ok _ s => s | Raise _ s => s end.

Definition raised {A} (o : outcome A) : option exn :=
  match o with Ok _ _ => None | Raise e _ => Some e end.

(** ** Statements *)

(** [name = v] at module level. *)
Definition store_name (name : string) (v : value) : M unit :=
  fun s => Ok tt (Interp (<[name := v]> (globals s)) (metadata s) (queries s)
                         (imports s)).

(** A name of the builtins read at module level: the namespace is searched
    first, then the builtins. *)
Definition load_builtin (name : string) : M value :=
  fun s => Ok (default (VBuiltin name) (globals s !! name)) s.

(** [from module import name] on an interpreter whose standard library is
    [stdlib]: [stdlib module name] tells whether [module] can be imported
    and has the attribute [name].  The module is asked for first; then the
    name is bound, or [ImportError] is raised when the module cannot
    supply it. *)
Definition from_import (stdlib : string -> string -> bool)
    (module name : string) : M unit :=
  fun s =>
    let s' := Interp (globals s) (metadata s) (queries s)
                     (imports s ++ [module]) in
    if stdlib module name then store_name name (VAttr module name) s'
    else Raise (ImportError module name) s'.

(** [d[key] = v] on an insertion-ordered dict. *)
Fixpoint dict_set (key : string) (v : value) (d : list (string * value))
  : list (string * value) :=
  match d with
  | [] => [(key, v)]
  | (k, w) :: d' =>
      if decide (k = key) then (k, v) :: d' else (k, w) :: dict_set key v d'
  end.

(** A module body that holds an annotated assignment starts by giving the
    namespace an empty [__annotations__] dict unless the name is bound
    already. *)
Definition setup_annotations : M unit :=
  fun s => match globals s !! "__annotations__" with
           | None => store_name "__annotations__" (VDict []) s
           | Some _ => Ok tt s
           end.

(** [__annotations__[target] = annotation]: the item is stored into the
    object the namespace binds to [__annotations__]; an object other than
    a dict does not support item assignment. *)
Definition annotate (target : string) (annotation : value) : M unit :=
  fun s =>
    match globals s !! "__annotations__" with
    | Some (VDict d) =>
        Ok tt (Interp (<["__annotations__" :=
                           VDict (dict_set target annotation d)]> (globals s))
                      (metadata s) (queries s) (imports s))
    | Some _ => Raise TypeError s
    | None => Raise (NameError "__annotations__") s
    end.

(** [target: annotation = v]: the value is stored first, then the
    annotation is evaluated and recorded. *)
Definition ann_assign (target : string) (annotation : M value) (v : value)
  : M unit :=
  store_name target v ;; a ← annotation ; annotate target a.

(** [importlib.metadata.version(distribution_name)]: one lookup of the
    provider, which returns an object or raises; the body sees whichever
    it is. *)
Definition version (distribution_name : string) : M value :=
  fun s =>
    let s' := Interp (globals s) (metadata s)
                     (queries s ++ [distribution_name]) (imports s) in
    match metadata s distribution_name with
    | Returns x => Ok x s'
    | Raises e => Raise e s'
    end.

(** ** The module body *)

Definition Sequence : value := VAttr "collections.abc" "Sequence".
Definition LiteralString : value := VAttr "typing" "LiteralString".
Definition str : value := VBuiltin "str".

(** Line 9, right-hand side: [('__version__',)]. *)
Definition __all__ : value := VTuple [VStr "__version__"].

(** [src/aicode/__init__.py], statement by statement, on an interpreter
    whose standard library is [stdlib]. *)
Definition aicode_on (stdlib : string -> string -> bool) : M unit :=
  setup_annotations ;;
  store_name "__doc__" (VStr "`aicode` package.") ;;
  from_import stdlib "collections.abc" "Sequence" ;;
  from_import stdlib "importlib.metadata" "version" ;;
  from_import stdlib "typing" "LiteralString" ;;
  ann_assign "__all__" (mret (VSubscript Sequence LiteralString)) __all__ ;;
  v ← version "aiCode" ;
  ann_assign "__version__" (load_builtin "str") v.

(** The part of the standard library the body uses, as an interpreter
    provides it. *)
Definition provided (names : list (string * string))
  : string -> string -> bool :=
  fun module name => bool_decide ((module, name) ∈ names).

(** CPython 3.11 and later: all three names exist. *)
Definition cpython_3_11 : string -> string -> bool :=
  provided [("collections.abc", "Sequence");
            ("importlib.metadata", "version");
            ("typing", "LiteralString")].

(** CPython 3.10: [typing] has no [LiteralString] yet. *)
Definition cpython_3_10 : string -> string -> bool :=
  provided [("collections.abc", "Sequence");
            ("importlib.metadata", "version")].

Definition supplies (stdlib : string -> string -> bool) : Prop :=
  stdlib "collections.abc" "Sequence" = true ∧
  stdlib "importlib.metadata" "version" = true ∧
  stdlib "typing" "LiteralString" = true.

(** The modules the body asks the import system for, in order. *)
Definition imported_modules : list string :=
  ["collections.abc"; "importlib.metadata"; "typing"].

(** The body on the interpreters the package runs on. *)
Definition aicode : M unit := aicode_on cpython_3_11.

(** The namespace an import (or a reload) runs the body in binds
    [__annotations__] to a dict or not at all. *)
Definition annotations_ok (g : gmap string value) : bool :=
  match g !! "__annotations__" with
  | None | Some (VDict _) => true
  | Some _ => false
  end.

(** ** The metadata provider

    How [importlib.metadata] (CPython 3.11) answers a query.  The
    environment is the list of installed distributions in discovery
    order, each given by the stem of its [.dist-info] directory (as in
    [aiCode-1.2.3.dist-info]; the stem may also be the bare name) and the
    [Version] header of its metadata, if it has one.  An empty name is
    refused; otherwise the first distribution whose directory key equals
    the normalised query answers, with its [Version] header or [None];
    without a match the package is not found.  Names are taken to be
    ASCII. *)

(** [str.lower] on an ASCII letter. *)
Definition lower (c : Ascii.ascii) : Ascii.ascii :=
  let n := Ascii.nat_of_ascii c in
  if (65 <=? n)%nat && (n <=? 90)%nat then Ascii.ascii_of_nat (n + 32) else c.

Definition is_separator (c : Ascii.ascii) : bool :=
  bool_decide (c = "-"%char ∨ c = "_"%char ∨ c = "."%char).

(** [Prepared.normalize]:
    [re.sub(r"[-_.]+", "-", name).lower().replace('-', '_')]; every run of
    separators becomes one underscore and letters are lower-cased.
    [in_run] tells that the previous character was a separator. *)
Fixpoint normalize_from (in_run : bool) (name : string) : string :=
  match name with
  | EmptyString => EmptyString
  | String c rest =>
      if is_separator c
      then if in_run then normalize_from true rest
           else String "_" (normalize_from true rest)
      else String (lower c) (normalize_from false rest)
  end.

Definition normalize (name : string) : string := normalize_from false name.

(** [stem.partition("-")[0]]: the part of a directory stem before its first
    dash. *)
Fixpoint before_dash (stem : string) : string :=
  match stem with
  | EmptyString => EmptyString
  | String c rest =>
      if decide (c = "-"%char) then EmptyString else String c (before_dash rest)
  end.

(** The key [Lookup] files a [.dist-info] directory under. *)
Definition directory_key (stem : string) : string :=
  normalize (before_dash stem).

(** The first distribution that matches the query, as [Distribution.discover]
    yields it. *)
Fixpoint discover (name : string) (env : list (string * option string))
  : option (option string) :=
  match env with
  | [] => None
  | (stem, v) :: env' =>
      if decide (directory_key stem = normalize name) then Some v
      else discover name env'
  end.

Definition provider (env : list (string * option string)) : string -> answer :=
  fun name =>
    if decide (name = "") then Raises ValueError
    else match discover name env with
         | Some (Some v) => Returns (VStr v)
         | Some None => Returns VNone
         | None => Raises (PackageNotFoundError name)
         end.

(** The records of [env] whose directory carries exactly the name [name],
    and those whose directory key is [key]. *)
Definition recorded_under (name : string) (env : list (string * option string))
  : list (string * option string) :=
  filter (λ r, before_dash r.1 = name) env.

Definition recorded_as (key : string) (env : list (string * option string))
  : list (string * option string) :=
  filter (λ r, directory_key r.1 = key) env.

(** ** The importing process

    The interpreter keeps the modules it has initialised in [sys.modules]:
    the first [import aicode] runs the module body in a namespace [g0]
    prepared by the import system and caches the module when the body
    returns; when the body raises, nothing is cached and the exception
    reaches the importer; a later [import aicode] returns the cached
    module without running the body again. *)
Record process : Type := Process {
  sys_modules_aicode : option (gmap string value);
  installed : string -> answer;
  lookups : list string;
  requests : list string
}.

Definition import_aicode (g0 : gmap string value) (p : process)
  : option exn * process :=
  match sys_modules_aicode p with
  | Some _ => (None, p)
  | None =>
      match aicode (Interp g0 (installed p) (lookups p) (requests p)) with
      | Ok _ s =>
          (None, Process (Some (globals s)) (metadata s) (queries s) (imports s))
      | Raise e s =>
          (Some e, Process None (metadata s) (queries s) (imports s))
      end
  end.

(** A consumer evaluating [aicode.__version__]. *)
Definition read_version (p : process) : option value :=
  match sys_modules_aicode p with
  | Some g => g !! "__version__"
  | None => None
  end.

(** What can happen to the package during the life of a process: it is
    imported (again), its constant is read, or the environment changes
    under it (a distribution is installed, upgraded or removed), so that
    the provider answers differently. *)
Inductive event : Type :=
| EImport
| ERead
| EEnvironment (md : string -> answer).

Inductive observation : Type :=
| OImport (e : option exn)
| ORead (v : option value)
| OEnvironment.

Definition step (g0 : gmap string value) (ev : event) (p : process)
  : observation * process :=
  match ev with
  | EImport => let '(e, p') := import_aicode g0 p in (OImport e, p')
  | ERead => (ORead (read_version p), p)
  | EEnvironment md =>
      (OEnvironment, Process (sys_modules_aicode p) md (lookups p) (requests p))
  end.

Fixpoint run (g0 : gmap string value) (evs : list event) (p : process)
  : list observation * process :=
  match evs with
  | [] => ([], p)
  | ev :: evs' =>
      let '(o, p') := step g0 ev p in
      let '(os, p'') := run g0 evs' p' in
      (o :: os, p'')
  end.

(** Applying a callable object to one [str] argument.  The one callable the
    module holds is the provider's [version]. *)
Definition call (f : value) (arg : string) : M value :=
  match f with
  | VAttr module name =>
      if decide (module = "importlib.metadata" ∧ name = "version")
      then version arg else raise TypeError
  | _ => raise TypeError
  end.

(** What an importer can observe of one run of the body: the exception, or
    the binding of the exported constant. *)
Definition exported (o : outcome unit) : exn + option value :=
  match o with
  | Ok _ s => inr (globals s !! "__version__")
  | Raise e _ => inl e
  end.

(** The names the module body binds in its namespace. *)
Definition module_names : list string :=
  ["__doc__"; "Sequence"; "version"; "LiteralString";
   "__all__"; "__annotations__"; "__version__"].

(** [writes names c]: running [c] leaves the provider as it was and changes
    the namespace at most at [names], whether [c] returns or raises. *)
Definition writes {A} (names : list string) (c : M A) : Prop :=
  ∀ s, metadata (final (c s)) = metadata s ∧
       ∀ n, n ∉ names → globals (final (c s)) !! n = globals s !! n.

(** The module provides a version operation under [name] when its namespace
    binds [name] to an object that, called with a distribution name,
    returns the version string the provider reports for that name. *)
Definition provides_operation (s : interp) (name : string) : Prop :=
  ∃ f, globals s !! name = Some f ∧
       ∀ (t : interp) (distribution_name v : string),
         metadata t distribution_name = Returns (VStr v) →
         ∃ t', call f distribution_name t = Ok (VStr v) t'.

(** ** The body in closed form *)

(** The annotation record a namespace holds, empty when it holds none. *)
Definition annotations_of (g : gmap string value) : list (string * value) :=
  match g !! "__annotations__" with
  | Some (VDict d) => d
  | _ => []
  end.

(** The namespace after the set-up of the annotation record. *)
Definition after_setup (g : gmap string value) : gmap string value :=
  match g !! "__annotations__" with
  | None => <["__annotations__" := VDict []]> g
  | Some _ => g
  end.

(** The namespace when line 9 has stored [__all__]. *)
Definition after_imports (g : gmap string value) : gmap string value :=
  <["__all__" := __all__]>
  (<["LiteralString" := LiteralString]>
  (<["version" := VAttr "importlib.metadata" "version"]>
  (<["Sequence" := Sequence]>
  (<["__doc__" := VStr "`aicode` package."]> (after_setup g))))).

(** The namespace lines 1 to 9 make of [g], and the one the whole body makes
    of it when the provider returns [x]. *)
Definition after_prelude (g : gmap string value) : gmap string value :=
  <["__annotations__" :=
      VDict (dict_set "__all__" (VSubscript Sequence LiteralString)
                      (annotations_of g))]>
  (after_imports g).

Definition after_body (x : value) (g : gmap string value)
  : gmap string value :=
  <["__annotations__" :=
      VDict (dict_set "__version__" (default str (g !! "str"))
               (dict_set "__all__" (VSubscript Sequence LiteralString)
                         (annotations_of g)))]>
  (<["__version__" := x]> (after_prelude g)).

(** ** Re-execution of the body

    [importlib.reload] runs the module body again in the namespace the
    first run left behind.  The definitions below describe that
    namespace. *)

(** [d.get(key)] on an insertion-ordered dict. *)
Fixpoint dict_get (key : string) (d : list (string * value)) : option value :=
  match d with
  | [] => None
  | (k, w) :: d' => if decide (k = key) then Some w else dict_get key d'
  end.

(** The names bound by the statements that precede the provider's lookup. *)
Definition bound_before_lookup : list string :=
  ["__doc__"; "Sequence"; "version"; "LiteralString";
   "__all__"; "__annotations__"].

(** A namespace in which lines 1 to 9 have run. *)
Definition prelude_done (g : gmap string value) : Prop :=
  g !! "__doc__" = Some (VStr "`aicode` package.") ∧
  g !! "Sequence" = Some Sequence ∧
  g !! "version" = Some (VAttr "importlib.metadata" "version") ∧
  g !! "LiteralString" = Some LiteralString ∧
  g !! "__all__" = Some __all__ ∧
  ∃ d, g !! "__annotations__" = Some (VDict d) ∧
       dict_get "__all__" d = Some (VSubscript Sequence LiteralString).

(** A namespace in which the whole body has run. *)
Definition body_done (g : gmap string value) : Prop :=
  prelude_done g ∧
  is_Some (g !! "__version__") ∧
  ∃ d, g !! "__annotations__" = Some (VDict d) ∧
       dict_get "__version__" d = Some (default str (g !! "str")).

(** ** Environments and states for concrete runs *)

(** The distribution installed at 1.2.3, at 2.0.0, and not at all. *)
Definition installed_1_2_3 : string -> answer :=
  provider [("aiCode-1.2.3", Some "1.2.3")].

Definition installed_2_0_0 : string -> answer :=
  provider [("aiCode-2.0.0", Some "2.0.0")].

Definition not_installed : string -> answer := provider [].

(** The distribution recorded under the lower-case spelling only, and
    installed with metadata that has no [Version] header. *)
Definition recorded_lowercase : list (string * option string) :=
  [("aicode-1.2.3", Some "1.2.3")].

Definition no_version_header : string -> answer :=
  provider [("aiCode-1.2.3", None)].

Definition st0 : interp := Interp ∅ installed_1_2_3 [] [].

(** A second state in which the provider answers the same for 'aiCode' and
    everything else differs: a populated namespace, another distribution,
    earlier lookups and imports. *)
Definition st1 : interp :=
  Interp {[ "__name__" := VStr "aicode" ]}
         (provider [("pip-24.0", Some "24.0"); ("aiCode-1.2.3", Some "1.2.3")])
         ["pip"] ["sys"].

Definition st_no_header : interp := Interp ∅ no_version_header [] [].

Definition p0 : process := Process None installed_1_2_3 [] [].
Definition p_missing : process := Process None not_installed [] [].

(** A stretch of process life after the first import: a read, the
    distribution disappearing from the environment, a second import, a
    read. *)
Definition life : list event :=
  [ERead; EEnvironment not_installed; EImport; ERead].

(** * Properties *)

(** Membership of a literal name in a literal list of names. *)
Ltac in_names :=
  repeat first [ apply list_elem_of_here | apply list_elem_of_further ].

Ltac not_in_names :=
  repeat (apply not_elem_of_cons; split; [discriminate|]);
  apply not_elem_of_nil.

Ltac run_body :=
  unfold aicode, aicode_on, ann_assign, from_import, store_name, annotate,
    setup_annotations, load_builtin, version,
    mbind, M_bind, bind, mret, M_ret, ret; simpl.

Section Body.

Implicit Types (s : interp) (g : gmap string value) (n : string)
  (stdlib : string → string → bool).

Lemma supplies_3_11 : supplies cpython_3_11.
Proof. by repeat split. Qed.

Lemma after_setup_annotations g :
  annotations_ok g = true →
  after_setup g !! "__annotations__" = Some (VDict (annotations_of g)).
Proof.
  unfold annotations_ok, after_setup, annotations_of.
  destruct (g !! "__annotations__") as [[]|] eqn:H; try done.
  intros _. apply lookup_insert_eq.
Qed.

Lemma after_imports_annotations g :
  after_imports g !! "__annotations__" = after_setup g !! "__annotations__".
Proof. unfold after_imports. by rewrite !lookup_insert_ne by done. Qed.

(** *** One statement at a time *)

Lemma bind_ok {A B} (c : M A) (k : A → M B) s a s' :
  c s = Ok a s' → (c ≫= k) s = k a s'.
Proof. intros H. unfold mbind, M_bind, bind. by rewrite H. Qed.

Lemma bind_raise {A B} (c : M A) (k : A → M B) s e s' :
  c s = Raise e s' → (c ≫= k) s = Raise e s'.
Proof. intros H. unfold mbind, M_bind, bind. by rewrite H. Qed.

Lemma setup_annotations_run g md q i :
  setup_annotations (Interp g md q i) = Ok tt (Interp (after_setup g) md q i).
Proof.
  unfold setup_annotations, after_setup. simpl.
  by destruct (g !! "__annotations__").
Qed.

Lemma from_import_run stdlib module name g md q i :
  stdlib module name = true →
  from_import stdlib module name (Interp g md q i)
  = Ok tt (Interp (<[name := VAttr module name]> g) md q (i ++ [module])).
Proof. intros H. unfold from_import. by rewrite H. Qed.

Lemma ann_assign_run target (annotation : M value) v a d g md q i :
  annotation (Interp (<[target := v]> g) md q i)
  = Ok a (Interp (<[target := v]> g) md q i) →
  <[target := v]> g !! "__annotations__" = Some (VDict d) →
  ann_assign target annotation v (Interp g md q i)
  = Ok tt (Interp (<["__annotations__" := VDict (dict_set target a d)]>
                     (<[target := v]> g)) md q i).
Proof.
  intros Ha Hd. unfold ann_assign.
  rewrite (bind_ok _ _ _ tt (Interp (<[target := v]> g) md q i)) by done.
  rewrite (bind_ok _ _ _ _ _ Ha).
  unfold annotate. simpl. by rewrite Hd.
Qed.

(** The statements that precede the lookup: lines 1 to 9. *)
Lemma prelude_run stdlib {B} (k : unit → M B) g md q i :
  supplies stdlib → annotations_ok g = true →
  (setup_annotations ;;
   store_name "__doc__" (VStr "`aicode` package.") ;;
   from_import stdlib "collections.abc" "Sequence" ;;
   from_import stdlib "importlib.metadata" "version" ;;
   from_import stdlib "typing" "LiteralString" ;;
   ann_assign "__all__" (mret (VSubscript Sequence LiteralString)) __all__ ≫= k)
    (Interp g md q i)
  = k tt (Interp (after_prelude g) md q (i ++ imported_modules)).
Proof.
  intros (Hseq & Hver & Hlit) Hok.
  pose proof (after_setup_annotations _ Hok) as Hann.
  rewrite <- after_imports_annotations in Hann.
  rewrite (bind_ok _ _ _ _ _ (setup_annotations_run g md q i)).
  rewrite (bind_ok _ _ _ tt
             (Interp (<["__doc__" := VStr "`aicode` package."]> (after_setup g))
                     md q i)) by done.
  rewrite (bind_ok _ _ _ _ _ (from_import_run stdlib _ _ _ md q i Hseq)).
  rewrite (bind_ok _ _ _ _ _ (from_import_run stdlib _ _ _ md q _ Hver)).
  rewrite (bind_ok _ _ _ _ _ (from_import_run stdlib _ _ _ md q _ Hlit)).
  rewrite (bind_ok _ _ _ _ _
             (ann_assign_run "__all__" _ __all__ _ _ _ md q _ eq_refl Hann)).
  by rewrite <- !app_assoc.
Qed.

(** The body in closed form: the state each outcome of the lookup ends in,
    on an interpreter that supplies the imports and in a namespace whose
    annotation record can be written. *)
Lemma aicode_on_run stdlib s :
  supplies stdlib → annotations_ok (globals s) = true →
  aicode_on stdlib s
  = match metadata s "aiCode" with
    | Returns x => Ok tt (Interp (after_body x (globals s)) (metadata s)
                                 (queries s ++ ["aiCode"])
                                 (imports s ++ imported_modules))
    | Raises e => Raise e (Interp (after_prelude (globals s)) (metadata s)
                                  (queries s ++ ["aiCode"])
                                  (imports s ++ imported_modules))
    end.
Proof.
  intros Hlib Hok. destruct s as [g md q i]. simpl in *.
  unfold aicode_on. rewrite (prelude_run stdlib _ g md q i Hlib Hok).
  unfold mbind at 1, M_bind, bind, version. simpl.
  destruct (md "aiCode") as [x|e]; [|done].
  apply ann_assign_run.
  - unfold load_builtin. simpl. do 2 f_equal.
    rewrite lookup_insert_ne by done. unfold after_prelude, after_imports.
    rewrite !lookup_insert_ne by done. unfold after_setup.
    destruct (g !! "__annotations__"); [done|].
    by rewrite lookup_insert_ne.
  - rewrite lookup_insert_ne by done. apply lookup_insert_eq.
Qed.

Lemma aicode_run s :
  annotations_ok (globals s) = true →
  aicode s
  = match metadata s "aiCode" with
    | Returns x => Ok tt (Interp (after_body x (globals s)) (metadata s)
                                 (queries s ++ ["aiCode"])
                                 (imports s ++ imported_modules))
    | Raises e => Raise e (Interp (after_prelude (globals s)) (metadata s)
                                  (queries s ++ ["aiCode"])
                                  (imports s ++ imported_modules))
    end.
Proof. apply aicode_on_run, supplies_3_11. Qed.

(** In a namespace that binds [__annotations__] to something other than a
    dict the body stops at line 9, before any lookup. *)
Lemma aicode_on_type_error stdlib s :
  supplies stdlib → annotations_ok (globals s) = false →
  aicode_on stdlib s
  = Raise TypeError (Interp (after_imports (globals s)) (metadata s)
                            (queries s) (imports s ++ imported_modules)).
Proof.
  intros (Hseq & Hver & Hlit) Hbad. destruct s as [g md q i]. simpl in *.
  unfold aicode_on.
  rewrite (bind_ok _ _ _ _ _ (setup_annotations_run g md q i)).
  rewrite (bind_ok _ _ _ tt
             (Interp (<["__doc__" := VStr "`aicode` package."]> (after_setup g))
                     md q i)) by done.
  rewrite (bind_ok _ _ _ _ _ (from_import_run stdlib _ _ _ md q i Hseq)).
  rewrite (bind_ok _ _ _ _ _ (from_import_run stdlib _ _ _ md q _ Hver)).
  rewrite (bind_ok _ _ _ _ _ (from_import_run stdlib _ _ _ md q _ Hlit)).
  rewrite <- !app_assoc. simpl.
  apply bind_raise. unfold ann_assign.
  rewrite (bind_ok _ _ _ tt
             (Interp (after_imports g) md q (i ++ imported_modules))) by done.
  unfold mbind, M_bind, bind, mret, M_ret, ret, annotate. simpl.
  rewrite after_imports_annotations. unfold after_setup.
  unfold annotations_ok in Hbad.
  destruct (g !! "__annotations__") as [[]|] eqn:Hg; try discriminate Hbad;
    simpl; by rewrite Hg.
Qed.

Lemma after_imports_all g : after_imports g !! "__all__" = Some __all__.
Proof. apply lookup_insert_eq. Qed.

Lemma after_prelude_all g : after_prelude g !! "__all__" = Some __all__.
Proof.
  unfold after_prelude. rewrite lookup_insert_ne by done.
  apply after_imports_all.
Qed.

Lemma after_body_all x g : after_body x g !! "__all__" = Some __all__.
Proof.
  unfold after_body. rewrite !lookup_insert_ne by done.
  apply after_prelude_all.
Qed.

Lemma after_body_version x g : after_body x g !! "__version__" = Some x.
Proof.
  unfold after_body. rewrite lookup_insert_ne by done. apply lookup_insert_eq.
Qed.

Lemma after_imports_other g n :
  n ∉ module_names → after_imports g !! n = g !! n.
Proof.
  intros Hn. unfold after_imports.
  rewrite !lookup_insert_ne by (intros <-; apply Hn; in_names).
  unfold after_setup. destruct (g !! "__annotations__"); [done|].
  rewrite lookup_insert_ne; [done|]. intros <-. apply Hn. in_names.
Qed.

Lemma after_prelude_version g :
  after_prelude g !! "__version__" = g !! "__version__".
Proof.
  unfold after_prelude, after_imports. rewrite !lookup_insert_ne by done.
  unfold after_setup. destruct (g !! "__annotations__"); [done|].
  by rewrite lookup_insert_ne.
Qed.

Lemma after_imports_version_name g :
  after_imports g !! "version" = Some (VAttr "importlib.metadata" "version").
Proof.
  unfold after_imports. rewrite !lookup_insert_ne by done.
  apply lookup_insert_eq.
Qed.

(** Every run of the body ends in one of three states. *)
Lemma aicode_final s :
  globals (final (aicode s)) = after_imports (globals s) ∨
  globals (final (aicode s)) = after_prelude (globals s) ∨
  ∃ x, globals (final (aicode s)) = after_body x (globals s).
Proof.
  destruct (annotations_ok (globals s)) eqn:Hok.
  - rewrite (aicode_run s Hok). destruct (metadata s "aiCode") as [x|e]; eauto.
  - unfold aicode. rewrite (aicode_on_type_error _ s supplies_3_11 Hok). eauto.
Qed.

Lemma aicode_all s :
  globals (final (aicode s)) !! "__all__" = Some __all__.
Proof.
  destruct (aicode_final s) as [-> | [-> | [x ->]]];
    auto using after_imports_all, after_prelude_all, after_body_all.
Qed.

Lemma aicode_version_name s :
  globals (final (aicode s)) !! "version"
  = Some (VAttr "importlib.metadata" "version").
Proof.
  destruct (aicode_final s) as [-> | [-> | [x ->]]];
    unfold after_body, after_prelude; rewrite ?lookup_insert_ne by done;
    apply after_imports_version_name.
Qed.


(** The body raises exactly what the provider's lookup raises. *)
Lemma aicode_on_raised stdlib s :
  supplies stdlib → annotations_ok (globals s) = true →
  raised (aicode_on stdlib s) = raised (version "aiCode" s).
Proof.
  intros Hlib Hok. rewrite (aicode_on_run stdlib s Hlib Hok). unfold version.
  by destruct (metadata s "aiCode").
Qed.

Lemma aicode_queries s :
  annotations_ok (globals s) = true →
  queries (final (aicode s)) = queries s ++ ["aiCode"].
Proof.
  intros Hok. rewrite (aicode_run s Hok). by destruct (metadata s "aiCode").
Qed.

Lemma exported_agree s1 s2 :
  annotations_ok (globals s1) = true → annotations_ok (globals s2) = true →
  metadata s1 "aiCode" = metadata s2 "aiCode" →
  exported (aicode s1) = exported (aicode s2).
Proof.
  intros Hok1 Hok2 Heq. rewrite (aicode_run s1 Hok1), (aicode_run s2 Hok2), Heq.
  destruct (metadata s2 "aiCode") as [x|e]; [|done].
  simpl. by rewrite !after_body_version.
Qed.

Lemma call_version (arg : string) :
  call (VAttr "importlib.metadata" "version") arg = version arg.
Proof. unfold call. by rewrite decide_True. Qed.

(** *** Frame rules *)

Lemma writes_store names name v :
  name ∈ names → writes names (store_name name v).
Proof.
  intros Hin s. split; [done|]. intros n Hn. simpl.
  apply lookup_insert_ne. intros ->. by apply Hn.
Qed.

Lemma writes_setup names :
  "__annotations__" ∈ names → writes names setup_annotations.
Proof.
  intros Hin s. unfold setup_annotations.
  destruct (globals s !! "__annotations__"); [done|].
  by apply writes_store.
Qed.

Lemma writes_from_import names stdlib module name :
  name ∈ names → writes names (from_import stdlib module name).
Proof.
  intros Hin s. unfold from_import.
  destruct (stdlib module name); [|done].
  split; [done|]. intros n Hn. simpl.
  apply lookup_insert_ne. intros ->. by apply Hn.
Qed.

Lemma writes_annotate names target annotation :
  "__annotations__" ∈ names → writes names (annotate target annotation).
Proof.
  intros Hin s. unfold annotate.
  destruct (globals s !! "__annotations__") as [[]|]; try done.
  split; [done|]. intros n Hn. simpl.
  apply lookup_insert_ne. intros <-. by apply Hn.
Qed.

Lemma writes_read names {A} (c : M A) :
  (∀ s, ∃ a, c s = Ok a s) → writes names c.
Proof. intros Hc s. destruct (Hc s) as [a ->]. by split. Qed.

Lemma writes_version names distribution_name :
  writes names (version distribution_name).
Proof.
  intros s. unfold version.
  by destruct (metadata s distribution_name).
Qed.

Lemma writes_bind {A B} names (c : M A) (k : A → M B) :
  writes names c → (∀ a, writes names (k a)) → writes names (c ≫= k).
Proof.
  intros Hc Hk s. unfold mbind, M_bind, bind.
  destruct (Hc s) as [Hm Hg].
  destruct (c s) as [a s'|e s']; simpl in *; [|done].
  destruct (Hk a s') as [Hm' Hg']. split.
  - by rewrite Hm'.
  - intros n Hn. by rewrite Hg', Hg.
Qed.

Lemma aicode_on_writes stdlib : writes module_names (aicode_on stdlib).
Proof.
  unfold aicode_on, ann_assign, module_names.
  repeat (apply writes_bind; [|intros ?]);
    first [ apply writes_version
          | apply writes_setup; in_names
          | apply writes_annotate; in_names
          | apply writes_from_import; in_names
          | apply writes_store; in_names
          | apply writes_read; intros ?; by eexists ].
Qed.

Lemma aicode_writes : writes module_names aicode.
Proof. apply aicode_on_writes. Qed.

End Body.

Section Initialisation.

Implicit Types (s : interp) (g : gmap string value) (n : string).

(** *** The exported constant *)

(** C1. Whenever the metadata provider reports a version string [v] for the
    name 'aiCode', the module body, run in a namespace whose annotation
    record can be written, returns and has bound [__version__] to exactly
    the string [v], unchanged. *)
Theorem version_constant_forwarded s (v : string) :
  metadata s "aiCode" = Returns (VStr v) →
  annotations_ok (globals s) = true →
  ∃ s', aicode s = Ok tt s' ∧ globals s' !! "__version__" = Some (VStr v).
Proof.
  intros Hv Hok. rewrite (aicode_run s Hok), Hv.
  eexists. split; [done|]. apply after_body_version.
Qed.

Lemma version_constant_forwarded_witness :
  metadata st0 "aiCode" = Returns (VStr "1.2.3") ∧
  annotations_ok (globals st0) = true ∧
  ∃ s', aicode st0 = Ok tt s' ∧ globals s' !! "__version__" = Some (VStr "1.2.3").
Proof.
  split; [reflexivity|]. split; [reflexivity|].
  apply (version_constant_forwarded st0 "1.2.3"); reflexivity.
Defined.

(** C3. Whatever the outcome of the body, [__all__] is bound to a tuple with
    exactly one item, the string '__version__'. *)
Theorem all_lists_version_only s :
  ∃ items, globals (final (aicode s)) !! "__all__" = Some (VTuple items) ∧
           length items = 1 ∧
           ∀ x, x ∈ items ↔ x = VStr "__version__".
Proof.
  exists [VStr "__version__"]. split; [apply aicode_all|].
  split; [done|]. intros x. apply list_elem_of_singleton.
Qed.

(** C8. Two runs of the body in which the provider gives the same answer for
    'aiCode' deliver the same thing to the importer: the same binding of
    [__version__], or the same exception; the rest of the two states (the
    initial namespaces, the other distributions, the earlier lookups and
    imports) may differ. *)
Theorem outcome_determined_by_provider s1 s2 :
  annotations_ok (globals s1) = true → annotations_ok (globals s2) = true →
  metadata s1 "aiCode" = metadata s2 "aiCode" →
  exported (aicode s1) = exported (aicode s2).
Proof. apply exported_agree. Qed.

Lemma outcome_determined_by_provider_witness :
  annotations_ok (globals st0) = true ∧ annotations_ok (globals st1) = true ∧
  metadata st0 "aiCode" = metadata st1 "aiCode" ∧
  exported (aicode st0) = exported (aicode st1).
Proof.
  split; [reflexivity|]. split; [reflexivity|]. split; [reflexivity|].
  apply (outcome_determined_by_provider st0 st1); reflexivity.
Defined.

(** *** The name looked up *)

Lemma discover_recorded_as (name : string) env :
  discover name (recorded_as (normalize name) env) = discover name env.
Proof.
  unfold recorded_as. induction env as [|[m v] env IH]; [done|].
  rewrite filter_cons. simpl.
  destruct (decide (directory_key m = normalize name)) as [Heq|Hne]; simpl.
  - by rewrite decide_True.
  - apply IH.
Qed.

Lemma provider_recorded_as (name : string) env :
  provider (recorded_as (normalize name) env) name = provider env name.
Proof. unfold provider. by rewrite discover_recorded_as. Qed.

(** C9, as stated, fails: the lookup is not case-sensitive.  Two
    environments that record nothing under exactly the key 'aiCode', one
    empty and one with a record under 'aicode', give different outcomes:
    the provider normalises names, so the record under 'aicode' answers
    the query for 'aiCode'. *)
Lemma lookup_is_not_case_sensitive :
  ¬ (∀ env1 env2,
       recorded_under "aiCode" env1 = recorded_under "aiCode" env2 →
       exported (aicode (Interp ∅ (provider env1) [] []))
       = exported (aicode (Interp ∅ (provider env2) [] []))).
Proof.
  intros H. specialize (H recorded_lowercase [] eq_refl).
  rewrite !aicode_run in H by reflexivity. simpl in H. discriminate H.
Qed.

(** C9, amended. The name passed to the provider is the literal 'aiCode' in
    every run: it is the one entry the run adds to the log of lookups,
    whatever the state.  The provider resolves it up to its normalisation,
    under which 'aiCode' is 'aicode': two environments with the same
    records of that normalised name give the importer the same outcome,
    whatever else they record. *)
Theorem lookup_name_is_literal s (env1 env2 : list (string * option string)) :
  annotations_ok (globals s) = true →
  recorded_as "aicode" env1 = recorded_as "aicode" env2 →
  queries (final (aicode s)) = queries s ++ ["aiCode"] ∧
  normalize "aiCode" = "aicode" ∧
  exported (aicode (Interp (globals s) (provider env1) (queries s) (imports s)))
  = exported (aicode (Interp (globals s) (provider env2) (queries s)
                             (imports s))).
Proof.
  intros Hok Henv. split; [by apply aicode_queries|]. split; [done|].
  apply exported_agree; [done..|]. simpl.
  rewrite <- (provider_recorded_as "aiCode" env1).
  rewrite <- (provider_recorded_as "aiCode" env2).
  change (normalize "aiCode") with "aicode". by rewrite Henv.
Qed.

Lemma lookup_name_is_literal_witness :
  annotations_ok (globals st0) = true ∧
  recorded_as "aicode"
    [("pip-24.0", Some "24.0"); ("aicode-1.2.3", Some "1.2.3")]
  = recorded_as "aicode"
      [("aicode-1.2.3", Some "1.2.3"); ("wheel-0.42.0", Some "0.42.0")] ∧
  queries (final (aicode st0)) = queries st0 ++ ["aiCode"] ∧
  exported (aicode (Interp (globals st0)
                      (provider [("pip-24.0", Some "24.0");
                                 ("aicode-1.2.3", Some "1.2.3")])
                      (queries st0) (imports st0)))
  = exported (aicode (Interp (globals st0)
                        (provider [("aicode-1.2.3", Some "1.2.3");
                                   ("wheel-0.42.0", Some "0.42.0")])
                        (queries st0) (imports st0))).
Proof.
  split; [reflexivity|]. split; [reflexivity|].
  destruct (lookup_name_is_literal st0
              [("pip-24.0", Some "24.0"); ("aicode-1.2.3", Some "1.2.3")]
              [("aicode-1.2.3", Some "1.2.3"); ("wheel-0.42.0", Some "0.42.0")]
              eq_refl eq_refl) as (Hq & _ & Hexp).
  split; [exact Hq | exact Hexp].
Defined.

(** *** Failure paths *)

(** C10, as stated, fails twice.  On CPython 3.10, where [typing] has no
    [LiteralString], the body raises [ImportError] although the lookup for
    'aiCode' would return; and where the distribution's metadata has no
    [Version] header the lookup returns [None], the body returns, and
    [__version__] is bound to [None], not to a string. *)
Lemma import_fails_elsewhere_and_binds_none :
  (raised (version "aiCode" st0) = None ∧
   raised (aicode_on cpython_3_10 st0)
   = Some (ImportError "typing" "LiteralString")) ∧
  (raised (aicode st_no_header) = None ∧
   globals (final (aicode st_no_header)) !! "__version__" = Some VNone).
Proof.
  split; [split; reflexivity|].
  rewrite (aicode_run st_no_header eq_refl). simpl.
  split; [done|]. apply after_body_version.
Qed.

(** C10, amended. On an interpreter that supplies the three imported names,
    and in a namespace whose [__annotations__] is unbound or a dict, the
    body raises if and only if the provider's lookup for 'aiCode' raises,
    and then it raises the same exception; and when it returns,
    [__version__] is bound to the object the lookup returned and [__all__]
    to the one-element tuple [('__version__',)]. *)
Theorem import_fails_iff_lookup_fails (stdlib : string → string → bool) s :
  supplies stdlib → annotations_ok (globals s) = true →
  raised (aicode_on stdlib s) = raised (version "aiCode" s) ∧
  (raised (aicode_on stdlib s) = None →
   ∃ x, metadata s "aiCode" = Returns x ∧
        globals (final (aicode_on stdlib s)) !! "__version__" = Some x ∧
        globals (final (aicode_on stdlib s)) !! "__all__"
        = Some (VTuple [VStr "__version__"])).
Proof.
  intros Hlib Hok. split; [by apply aicode_on_raised|].
  rewrite (aicode_on_run stdlib s Hlib Hok).
  destruct (metadata s "aiCode") as [x|e]; [|done].
  intros _. exists x. split; [done|]. simpl.
  split; [apply after_body_version | apply after_body_all].
Qed.

Lemma import_fails_iff_lookup_fails_witness :
  supplies cpython_3_11 ∧ annotations_ok (globals st0) = true ∧
  raised (aicode_on cpython_3_11 st0) = raised (version "aiCode" st0) ∧
  ∃ x, metadata st0 "aiCode" = Returns x ∧
       globals (final (aicode_on cpython_3_11 st0)) !! "__version__" = Some x ∧
       globals (final (aicode_on cpython_3_11 st0)) !! "__all__"
       = Some (VTuple [VStr "__version__"]).
Proof.
  assert (Hlib : supplies cpython_3_11) by (repeat split; reflexivity).
  split; [exact Hlib|]. split; [reflexivity|].
  destruct (import_fails_iff_lookup_fails cpython_3_11 st0 Hlib eq_refl)
    as [Hraised Hok].
  split; [exact Hraised|]. apply Hok. reflexivity.
Defined.

(** *** What the body writes, and the operation it uses *)




(** C4, as stated, fails: the package has no operation [get_version], and
    the one name it exports is bound to a string, which cannot be called;
    after the body has run in an empty namespace neither name provides a
    version operation. *)
Lemma get_version_not_provided :
  ¬ provides_operation (final (aicode st0)) "get_version" ∧
  ¬ provides_operation (final (aicode st0)) "__version__".
Proof.
  split; intros (f & Hf & Hcall).
  - destruct (aicode_writes st0) as [_ Hg].
    rewrite Hg in Hf by not_in_names. simpl in Hf.
    by rewrite lookup_empty in Hf.
  - rewrite (aicode_run st0 eq_refl) in Hf. simpl in Hf.
    rewrite after_body_version in Hf. injection Hf as <-.
    destruct (Hcall st0 "aiCode" "1.2.3" eq_refl) as (t' & Ht').
    discriminate Ht'.
Qed.

(** C4, amended. The package defines no operation of its own and leaves the
    name [get_version] as it found it; the operation it uses is the
    provider's [version(distribution_name)], which its namespace holds
    under the name [version]: called with a distribution name it returns
    the version string recorded for that name; the body applies it to
    'aiCode' and hands the importer its result, bound to [__version__], or
    its exception. *)
Theorem version_operation_imported s :
  globals (final (aicode s)) !! "get_version" = globals s !! "get_version" ∧
  provides_operation (final (aicode s)) "version" ∧
  (annotations_ok (globals s) = true →
   exported (aicode s)
   = match call (VAttr "importlib.metadata" "version") "aiCode" s with
     | Ok x _ => inr (Some x)
     | Raise e _ => inl e
     end).
Proof.
  split; [|split].
  - destruct (aicode_writes s) as [_ Hg]. apply Hg. not_in_names.
  - exists (VAttr "importlib.metadata" "version").
    split; [apply aicode_version_name|].
    intros t distribution_name v Hv.
    rewrite call_version. unfold version. rewrite Hv. by eexists.
  - intros Hok. rewrite call_version, (aicode_run s Hok). unfold version.
    destruct (metadata s "aiCode") as [x|e]; [|done].
    simpl. by rewrite after_body_version.
Qed.

Lemma version_operation_imported_witness :
  ∃ f, globals (final (aicode st0)) !! "version" = Some f ∧
       ∃ t', call f "pip" st1 = Ok (VStr "24.0") t'.
Proof.
  destruct (version_operation_imported st0) as (_ & (f & Hf & Hcall) & _).
  exists f. split; [exact Hf|]. apply Hcall. reflexivity.
Defined.

End Initialisation.

Section Process.

Variable g0 : gmap string value.
Hypothesis g0_ok : annotations_ok g0 = true.

Implicit Types (p : process) (evs : list event).

Lemma import_cached p g :
  sys_modules_aicode p = Some g → import_aicode g0 p = (None, p).
Proof. intros H. unfold import_aicode. by rewrite H. Qed.

Lemma import_returns p x :
  sys_modules_aicode p = None → installed p "aiCode" = Returns x →
  ∃ g, import_aicode g0 p
       = (None, Process (Some g) (installed p) (lookups p ++ ["aiCode"])
                        (requests p ++ imported_modules)) ∧
       g !! "__version__" = Some x.
Proof.
  intros Hnone Hv. unfold import_aicode. rewrite Hnone.
  rewrite aicode_run by done. simpl. rewrite Hv.
  eexists. split; [done|]. apply after_body_version.
Qed.

Lemma import_raises p e :
  sys_modules_aicode p = None → installed p "aiCode" = Raises e →
  import_aicode g0 p
  = (Some e, Process None (installed p) (lookups p ++ ["aiCode"])
                     (requests p ++ imported_modules)).
Proof.
  intros Hnone Hv. unfold import_aicode. rewrite Hnone.
  rewrite aicode_run by done. simpl. by rewrite Hv.
Qed.

(** Once the module is cached, a step neither replaces it nor queries the
    provider, and a read sees the cached binding. *)
Lemma step_cached ev p g :
  sys_modules_aicode p = Some g →
  sys_modules_aicode (step g0 ev p).2 = Some g ∧
  lookups (step g0 ev p).2 = lookups p ∧
  ∀ x, (step g0 ev p).1 = ORead x → x = g !! "__version__".
Proof.
  intros Hg. destruct ev as [| |md]; simpl.
  - rewrite (import_cached p g Hg). simpl. by repeat split.
  - repeat split; try done. intros x [= <-]. unfold read_version. by rewrite Hg.
  - by repeat split.
Qed.

Lemma run_cached evs : ∀ p g,
  sys_modules_aicode p = Some g →
  sys_modules_aicode (run g0 evs p).2 = Some g ∧
  lookups (run g0 evs p).2 = lookups p ∧
  Forall (λ o, ∀ x, o = ORead x → x = g !! "__version__") (run g0 evs p).1.
Proof.
  induction evs as [|ev evs IH]; intros p g Hg; simpl.
  - by repeat split.
  - destruct (step_cached ev p g Hg) as (Hmod & Hlog & Hread).
    destruct (step g0 ev p) as [o p'] eqn:Hstep. simpl in *.
    destruct (IH p' g Hmod) as (Hmod' & Hlog' & Hreads).
    destruct (run g0 evs p') as [os p''] eqn:Hrun. simpl in *.
    split; [done|]. split; [congruence|].
    constructor; done.
Qed.

(** C5. After an import that bound [__version__] to [v], whatever follows in
    the process (reads of the constant, further imports of the package,
    changes of the environment) every read returns [v], the cached module
    is never replaced and the provider is never queried again. *)
Theorem version_constant_stable p (v : string) evs :
  sys_modules_aicode p = None → installed p "aiCode" = Returns (VStr v) →
  let p1 := (import_aicode g0 p).2 in
  Forall (λ o, ∀ x, o = ORead x → x = Some (VStr v)) (run g0 evs p1).1 ∧
  sys_modules_aicode (run g0 evs p1).2 = sys_modules_aicode p1 ∧
  lookups (run g0 evs p1).2 = lookups p1.
Proof.
  intros Hnone Hv p1. subst p1.
  destruct (import_returns p _ Hnone Hv) as (g & -> & Hg). simpl.
  destruct (run_cached evs
              (Process (Some g) (installed p) (lookups p ++ ["aiCode"])
                       (requests p ++ imported_modules))
              g eq_refl) as (Hmod & Hlog & Hreads).
  split; [|done].
  eapply Forall_impl; [exact Hreads|].
  intros o Ho x Hx. rewrite <- Hg. by apply Ho.
Qed.

(** C6. Every run of the module body makes exactly one lookup of the
    provider, whether the lookup answers or raises: an import that runs the
    body adds one entry to the log; and once the module is cached, no read
    of the constant and no further import adds another. *)
Theorem provider_queried_once (s : interp) p evs :
  (annotations_ok (globals s) = true →
   queries (final (aicode s)) = queries s ++ ["aiCode"]) ∧
  (sys_modules_aicode p = None →
   lookups (import_aicode g0 p).2 = lookups p ++ ["aiCode"]) ∧
  (is_Some (sys_modules_aicode p) →
   lookups (run g0 evs p).2 = lookups p).
Proof.
  split; [apply aicode_queries|]. split.
  - intros Hnone. destruct (installed p "aiCode") as [x|e] eqn:Hv.
    + by destruct (import_returns p x Hnone Hv) as (g & -> & _).
    + by rewrite (import_raises p e Hnone Hv).
  - intros [g Hg]. by destruct (run_cached evs p g Hg) as (_ & ? & _).
Qed.

(** C2. When the provider has no entry for 'aiCode', the body raises the
    provider's [PackageNotFoundError('aiCode')], the very exception the
    lookup raised; it leaves [__version__] as the import system prepared
    it, the import hands the exception to the importer, no module is
    cached and a read of the constant finds nothing. *)
Theorem not_found_propagates p :
  sys_modules_aicode p = None →
  installed p "aiCode" = Raises (PackageNotFoundError "aiCode") →
  let s := Interp g0 (installed p) (lookups p) (requests p) in
  raised (version "aiCode" s) = Some (PackageNotFoundError "aiCode") ∧
  raised (aicode s) = raised (version "aiCode" s) ∧
  globals (final (aicode s)) !! "__version__" = g0 !! "__version__" ∧
  (import_aicode g0 p).1 = Some (PackageNotFoundError "aiCode") ∧
  sys_modules_aicode (import_aicode g0 p).2 = None ∧
  read_version (import_aicode g0 p).2 = None.
Proof.
  intros Hnone Hv s.
  split; [unfold version; simpl; by rewrite Hv|].
  split; [by apply aicode_on_raised; [apply supplies_3_11|]|].
  split.
  - subst s. rewrite aicode_run by done. simpl. rewrite Hv. simpl.
    apply after_prelude_version.
  - by rewrite (import_raises p _ Hnone Hv).
Qed.

(** X5. A failed import is not cached: when the distribution is missing at
    the first import and installed at [v] before the second, the first
    import raises, the second returns, a read then yields [v], and the
    provider has been queried twice. *)
Theorem failed_import_is_retried (p : process) (md : string → answer)
    (v : string) :
  sys_modules_aicode p = None →
  installed p "aiCode" = Raises (PackageNotFoundError "aiCode") →
  md "aiCode" = Returns (VStr v) →
  (run g0 [EImport; EEnvironment md; EImport; ERead] p).1
  = [OImport (Some (PackageNotFoundError "aiCode")); OEnvironment;
     OImport None; ORead (Some (VStr v))] ∧
  lookups (run g0 [EImport; EEnvironment md; EImport; ERead] p).2
  = lookups p ++ ["aiCode"; "aiCode"].
Proof.
  intros Hnone Hmiss Hv. simpl.
  rewrite (import_raises p _ Hnone Hmiss). simpl.
  destruct (import_returns
              (Process None md (lookups p ++ ["aiCode"])
                       (requests p ++ imported_modules))
              (VStr v) eq_refl Hv) as (g & -> & Hg).
  simpl. unfold read_version. simpl. rewrite Hg.
  by rewrite <- app_assoc.
Qed.

End Process.

(** ** Running the body again *)

Section Reexecution.

Implicit Types (s : interp) (g : gmap string value) (d : list (string * value)).

Lemma dict_get_set_eq key v d : dict_get key (dict_set key v d) = Some v.
Proof.
  induction d as [|[k w] d IH]; simpl.
  - by rewrite decide_True.
  - destruct (decide (k = key)) as [->|Hne]; simpl.
    + by rewrite decide_True.
    + by rewrite decide_False.
Qed.

Lemma dict_get_set_ne key key' v d :
  key ≠ key' → dict_get key (dict_set key' v d) = dict_get key d.
Proof.
  intros Hne. induction d as [|[k w] d IH]; simpl.
  - by rewrite decide_False.
  - destruct (decide (k = key')) as [->|Hk]; simpl.
    + by rewrite !decide_False.
    + destruct (decide (k = key)); [done|apply IH].
Qed.

Lemma dict_set_id key v d : dict_get key d = Some v → dict_set key v d = d.
Proof.
  induction d as [|[k w] d IH]; simpl; [done|].
  destruct (decide (k = key)) as [->|Hk].
  - by intros [= ->].
  - intros Hget. by rewrite IH.
Qed.

Lemma after_setup_bound g :
  is_Some (g !! "__annotations__") → after_setup g = g.
Proof. intros [x Hx]. unfold after_setup. by rewrite Hx. Qed.

(** Lines 1 to 9 leave a namespace in which they have run as it is. *)
Lemma after_prelude_id g : prelude_done g → after_prelude g = g.
Proof.
  intros (Hdoc & Hseq & Hver & Hlit & Hall & d & Hd & Hget).
  unfold after_prelude, after_imports, annotations_of.
  rewrite after_setup_bound by (by eexists).
  rewrite (insert_id _ _ _ Hdoc), (insert_id _ _ _ Hseq).
  rewrite (insert_id _ _ _ Hver), (insert_id _ _ _ Hlit).
  rewrite (insert_id _ _ _ Hall), Hd, (dict_set_id _ _ _ Hget).
  by apply insert_id.
Qed.

(** The whole body changes at most [__version__] in a namespace in which
    it has run. *)
Lemma after_body_id x g :
  body_done g → after_body x g = <["__version__" := x]> g.
Proof.
  intros (Hdone & _ & d & Hd & Hget). unfold after_body.
  rewrite (after_prelude_id g Hdone).
  destruct Hdone as (_ & _ & _ & _ & _ & d' & Hd' & Hget').
  rewrite Hd in Hd'. injection Hd' as <-.
  unfold annotations_of. rewrite Hd, (dict_set_id _ _ _ Hget').
  rewrite (dict_set_id _ _ _ Hget).
  apply insert_id. by rewrite lookup_insert_ne.
Qed.

Lemma after_prelude_done g : prelude_done (after_prelude g).
Proof.
  unfold prelude_done, after_prelude, after_imports. repeat split.
  1-5: rewrite !lookup_insert_ne by done; apply lookup_insert_eq.
  eexists. split; [apply lookup_insert_eq|]. apply dict_get_set_eq.
Qed.

Lemma after_body_str x g : after_body x g !! "str" = g !! "str".
Proof.
  unfold after_body, after_prelude. rewrite !lookup_insert_ne by done.
  apply after_imports_other. not_in_names.
Qed.

Lemma after_body_done x g : body_done (after_body x g).
Proof.
  split; [|split].
  - destruct (after_prelude_done g) as (Hdoc & Hseq & Hver & Hlit & Hall & _).
    unfold prelude_done, after_body. repeat split.
    1-5: by rewrite !lookup_insert_ne by done.
    eexists. split; [apply lookup_insert_eq|].
    rewrite dict_get_set_ne by done. apply dict_get_set_eq.
  - rewrite after_body_version. by eexists.
  - rewrite after_body_str.
    eexists. split; [apply lookup_insert_eq|]. apply dict_get_set_eq.
Qed.

Lemma prelude_done_ok g : prelude_done g → annotations_ok g = true.
Proof.
  intros (_ & _ & _ & _ & _ & d & Hd & _). unfold annotations_ok.
  by rewrite Hd.
Qed.

(** Running the body in a namespace in which it has run. *)
Lemma rerun g (md : string → answer) (q i : list string) :
  body_done g →
  aicode (Interp g md q i)
  = match md "aiCode" with
    | Returns x => Ok tt (Interp (<["__version__" := x]> g) md
                                 (q ++ ["aiCode"]) (i ++ imported_modules))
    | Raises e => Raise e (Interp g md (q ++ ["aiCode"])
                                  (i ++ imported_modules))
    end.
Proof.
  intros Hdone. rewrite aicode_run by (apply prelude_done_ok, Hdone). simpl.
  destruct (md "aiCode") as [x|e].
  - by rewrite (after_body_id x g Hdone).
  - destruct Hdone as (Hpre & _). by rewrite (after_prelude_id g Hpre).
Qed.

(** X1. Running the body a second time in the state the first run ended
    in, as a reload does, leaves the namespace exactly as the first run
    left it and has the same outcome; the provider has then been queried
    twice. *)
Theorem reexecution_idempotent s :
  annotations_ok (globals s) = true →
  globals (final (aicode (final (aicode s)))) = globals (final (aicode s)) ∧
  raised (aicode (final (aicode s))) = raised (aicode s) ∧
  queries (final (aicode (final (aicode s))))
  = queries s ++ ["aiCode"; "aiCode"].
Proof.
  intros Hok. rewrite (aicode_run s Hok).
  destruct (metadata s "aiCode") as [x|e] eqn:Hv; simpl.
  - rewrite (rerun _ _ _ _ (after_body_done x (globals s))), Hv. simpl.
    rewrite (insert_id _ _ _ (after_body_version x (globals s))).
    by rewrite <- app_assoc.
  - rewrite aicode_run
      by (apply prelude_done_ok, after_prelude_done).
    simpl. rewrite Hv. simpl.
    rewrite (after_prelude_id _ (after_prelude_done (globals s))).
    by rewrite <- app_assoc.
Qed.

(** X2. When the distribution's record has changed to [v'] after a run that
    returned, running the body again rebinds [__version__] to [v'] and
    changes nothing else in the namespace. *)
Theorem reexecution_refreshes_version s (md' : string → answer)
    (v v' : string) :
  annotations_ok (globals s) = true →
  metadata s "aiCode" = Returns (VStr v) → md' "aiCode" = Returns (VStr v') →
  aicode (Interp (globals (final (aicode s))) md' (queries (final (aicode s)))
                 (imports (final (aicode s))))
  = Ok tt (Interp (<["__version__" := VStr v']> (globals (final (aicode s))))
                  md' (queries (final (aicode s)) ++ ["aiCode"])
                  (imports (final (aicode s)) ++ imported_modules)).
Proof.
  intros Hok Hv Hv'. rewrite (aicode_run s Hok), Hv. simpl.
  by rewrite (rerun _ _ _ _ (after_body_done _ (globals s))), Hv'.
Qed.

(** X3. When the distribution has disappeared after a run that returned,
    running the body again raises and leaves the whole namespace as it
    was: [__version__] stays bound to the version of the first run. *)
Theorem failed_reexecution_keeps_namespace s (md' : string → answer)
    (v : string) :
  annotations_ok (globals s) = true →
  metadata s "aiCode" = Returns (VStr v) →
  md' "aiCode" = Raises (PackageNotFoundError "aiCode") →
  aicode (Interp (globals (final (aicode s))) md' (queries (final (aicode s)))
                 (imports (final (aicode s))))
  = Raise (PackageNotFoundError "aiCode")
          (Interp (globals (final (aicode s))) md'
                  (queries (final (aicode s)) ++ ["aiCode"])
                  (imports (final (aicode s)) ++ imported_modules)) ∧
  globals (final (aicode s)) !! "__version__" = Some (VStr v).
Proof.
  intros Hok Hv Hv'. rewrite (aicode_run s Hok), Hv. simpl.
  split; [|apply after_body_version].
  by rewrite (rerun _ _ _ _ (after_body_done _ (globals s))), Hv'.
Qed.

Lemma dom_after_imports g :
  dom (after_imports g)
  = dom g ∪ {["__doc__"; "Sequence"; "version"; "LiteralString"; "__all__"]}
    ∪ (if g !! "__annotations__" is Some _ then ∅ else {["__annotations__"]}).
Proof.
  unfold after_imports, after_setup. rewrite !dom_insert_L.
  destruct (g !! "__annotations__"); [|rewrite dom_insert_L];
    apply set_eq; intros n;
    rewrite ?elem_of_union, ?elem_of_singleton, ?elem_of_empty; tauto.
Qed.

(** X4. The names bound after a run are those bound before it together with
    the names of [module_names] when the body returns, and with all of
    these but [__version__] when it raises. *)
Theorem names_bound_after_body s :
  dom (globals (final (aicode s)))
  = dom (globals s) ∪
    list_to_set (match raised (aicode s) with
                 | None => module_names
                 | Some _ => bound_before_lookup
                 end).
Proof.
  destruct (annotations_ok (globals s)) eqn:Hok.
  - rewrite (aicode_run s Hok).
    destruct (metadata s "aiCode") as [x|e]; simpl;
      unfold after_body, after_prelude;
      rewrite !dom_insert_L, dom_after_imports;
      destruct (globals s !! "__annotations__");
      apply set_eq; intros n;
      rewrite ?elem_of_union, ?elem_of_singleton, ?elem_of_empty; tauto.
  - unfold aicode. rewrite (aicode_on_type_error _ s supplies_3_11 Hok). simpl.
    rewrite dom_after_imports. unfold annotations_ok in Hok.
    destruct (globals s !! "__annotations__") as [y|] eqn:Hy; [|done].
    assert (Hin : "__annotations__" ∈ dom (globals s))
      by (apply elem_of_dom; by eexists).
    apply set_eq; intros n.
    rewrite ?elem_of_union, ?elem_of_singleton, ?elem_of_empty.
    split; [tauto|]. intros [?|[?|[?|[?|[?|[?|[->|[]]]]]]]]; tauto.
Qed.

End Reexecution.

(** ** Concrete runs *)

Lemma version_constant_stable_witness :
  annotations_ok ∅ = true ∧
  sys_modules_aicode p0 = None ∧
  installed p0 "aiCode" = Returns (VStr "1.2.3") ∧
  Forall (λ o, ∀ x, o = ORead x → x = Some (VStr "1.2.3"))
         (run ∅ life (import_aicode ∅ p0).2).1 ∧
  sys_modules_aicode (run ∅ life (import_aicode ∅ p0).2).2
  = sys_modules_aicode (import_aicode ∅ p0).2 ∧
  lookups (run ∅ life (import_aicode ∅ p0).2).2
  = lookups (import_aicode ∅ p0).2.
Proof.
  assert (Hok : annotations_ok ∅ = true) by reflexivity.
  split; [exact Hok|]. split; [reflexivity|]. split; [reflexivity|].
  apply (version_constant_stable ∅ Hok p0 "1.2.3" life); reflexivity.
Defined.

Lemma provider_queried_once_witness :
  annotations_ok ∅ = true ∧
  annotations_ok (globals st1) = true ∧
  sys_modules_aicode p0 = None ∧
  queries (final (aicode st1)) = queries st1 ++ ["aiCode"] ∧
  lookups (import_aicode ∅ p0).2 = lookups p0 ++ ["aiCode"].
Proof.
  assert (Hok : annotations_ok ∅ = true) by reflexivity.
  split; [exact Hok|]. split; [reflexivity|]. split; [reflexivity|].
  destruct (provider_queried_once ∅ Hok st1 p0 life) as (Hq & Hp & _).
  split; [apply Hq | apply Hp]; reflexivity.
Defined.

Lemma not_found_propagates_witness :
  annotations_ok ∅ = true ∧
  sys_modules_aicode p_missing = None ∧
  installed p_missing "aiCode" = Raises (PackageNotFoundError "aiCode") ∧
  (import_aicode ∅ p_missing).1 = Some (PackageNotFoundError "aiCode") ∧
  read_version (import_aicode ∅ p_missing).2 = None.
Proof.
  assert (Hok : annotations_ok ∅ = true) by reflexivity.
  split; [exact Hok|]. split; [reflexivity|]. split; [reflexivity|].
  destruct (not_found_propagates ∅ Hok p_missing eq_refl eq_refl)
    as (_ & _ & _ & Himp & _ & Hread).
  split; [exact Himp | exact Hread].
Defined.

Lemma failed_import_is_retried_witness :
  annotations_ok ∅ = true ∧
  sys_modules_aicode p_missing = None ∧
  installed p_missing "aiCode" = Raises (PackageNotFoundError "aiCode") ∧
  installed_1_2_3 "aiCode" = Returns (VStr "1.2.3") ∧
  (run ∅ [EImport; EEnvironment installed_1_2_3; EImport; ERead] p_missing).1
  = [OImport (Some (PackageNotFoundError "aiCode")); OEnvironment;
     OImport None; ORead (Some (VStr "1.2.3"))] ∧
  lookups (run ∅ [EImport; EEnvironment installed_1_2_3; EImport; ERead]
               p_missing).2
  = lookups p_missing ++ ["aiCode"; "aiCode"].
Proof.
  assert (Hok : annotations_ok ∅ = true) by reflexivity.
  split; [exact Hok|]. split; [reflexivity|]. split; [reflexivity|].
  split; [reflexivity|].
  apply (failed_import_is_retried ∅ Hok p_missing installed_1_2_3 "1.2.3");
    reflexivity.
Defined.

Lemma reexecution_idempotent_witness :
  annotations_ok (globals st1) = true ∧
  globals (final (aicode (final (aicode st1)))) = globals (final (aicode st1)) ∧
  raised (aicode (final (aicode st1))) = raised (aicode st1) ∧
  queries (final (aicode (final (aicode st1))))
  = queries st1 ++ ["aiCode"; "aiCode"].
Proof.
  split; [reflexivity|]. apply (reexecution_idempotent st1). reflexivity.
Defined.

Lemma reexecution_refreshes_version_witness :
  annotations_ok (globals st0) = true ∧
  metadata st0 "aiCode" = Returns (VStr "1.2.3") ∧
  installed_2_0_0 "aiCode" = Returns (VStr "2.0.0") ∧
  aicode (Interp (globals (final (aicode st0))) installed_2_0_0
                 (queries (final (aicode st0))) (imports (final (aicode st0))))
  = Ok tt (Interp (<["__version__" := VStr "2.0.0"]> (globals (final (aicode st0))))
                  installed_2_0_0 (queries (final (aicode st0)) ++ ["aiCode"])
                  (imports (final (aicode st0)) ++ imported_modules)).
Proof.
  split; [reflexivity|]. split; [reflexivity|]. split; [reflexivity|].
  apply (reexecution_refreshes_version st0 installed_2_0_0 "1.2.3" "2.0.0");
    reflexivity.
Defined.

Lemma failed_reexecution_keeps_namespace_witness :
  annotations_ok (globals st0) = true ∧
  metadata st0 "aiCode" = Returns (VStr "1.2.3") ∧
  not_installed "aiCode" = Raises (PackageNotFoundError "aiCode") ∧
  aicode (Interp (globals (final (aicode st0))) not_installed
                 (queries (final (aicode st0))) (imports (final (aicode st0))))
  = Raise (PackageNotFoundError "aiCode")
          (Interp (globals (final (aicode st0))) not_installed
                  (queries (final (aicode st0)) ++ ["aiCode"])
                  (imports (final (aicode st0)) ++ imported_modules)) ∧
  globals (final (aicode st0)) !! "__version__" = Some (VStr "1.2.3").
Proof.
  split; [reflexivity|]. split; [reflexivity|]. split; [reflexivity|].
  apply (failed_reexecution_keeps_namespace st0 not_installed "1.2.3");
    reflexivity.
Defined.
